(** * A verified model of the static-page web application [app.py]

    The program under study is a single-module Flask application:

      - [app = Flask(__name__)] creates the application object;
      - [@app.route('/')] registers the view function [index], which returns
        [render_template_string(<literal>)];
      - under [__name__ == '__main__'] the script calls
        [app.run(debug=True, host='0.0.0.0', port=5000)].

    The development is organised as the program is:

      - [Text]    byte strings and the few string operations the proofs use;
      - [jinja2]  the template renderer behind [render_template_string],
                  restricted to the fragment "data and [{{ name }}]";
      - [flask]   requests, responses, the URL map built by [route], request
                  dispatch, [run] and the development server it starts,
                  with the debugger it puts in front of the application;
      - the application itself ([TEMPLATE], [index], [app], [main]),
        transcribed from [app.py];
      - the properties of the application.

    Python [str] values are represented by their UTF-8 encoding as Rocq
    [string]s (sequences of bytes).  This is the form in which the response
    body leaves the process, and every delimiter the renderer looks for is
    ASCII, so scanning bytes and scanning code points agree. *)

From Stdlib Require Import String Ascii List ZArith Bool Lia Permutation.
From Stdlib Require Import Decimal DecimalString.
Import ListNotations.

Open Scope string_scope.

(* ------------------------------------------------------------------ *)
(** * Byte strings *)
(* ------------------------------------------------------------------ *)

Module Text.

(** The three characters that cannot be written inside a literal. *)
Definition LF : string := String "010"%char EmptyString.
Definition CR : string := String "013"%char EmptyString.
Definition DQ : string := String "034"%char EmptyString.

(** [needle in hay] of Python, as a boolean function. *)
Fixpoint contains (needle hay : string) : bool :=
  prefix needle hay ||
  match hay with
  | EmptyString => false
  | String _ rest => contains needle rest
  end.

(** The same as a proposition: [hay] splits around [needle]. *)
Definition Substring (needle hay : string) : Prop :=
  exists before after, hay = before ++ needle ++ after.

(** [s.startswith(p)] and [s.endswith(p)] as propositions. *)
Definition StartsWith (p s : string) : Prop := exists rest, s = p ++ rest.
Definition EndsWith (p s : string) : Prop := exists front, s = front ++ p.

(** [s.split('\n')]: the lines of [s]; a string with [n] line feeds has
    [n + 1] lines, the first and the last possibly empty. *)
Fixpoint lines (s : string) : list string :=
  match s with
  | EmptyString => [EmptyString]
  | String c rest =>
      if Ascii.eqb c "010"%char then EmptyString :: lines rest
      else match lines rest with
           | [] => [String c EmptyString]
           | l :: ls => String c l :: ls
           end
  end.

(** [str(n)] for a natural number. *)
Definition decimal (n : nat) : string := NilEmpty.string_of_uint (Nat.to_uint n).

(** [sep.join(parts)] is [String.concat] of the Standard Library. *)
Definition join (sep : string) (parts : list string) : string :=
  String.concat sep parts.

(** [s.strip(' ')]: blanks removed at both ends. *)
Fixpoint lstrip (s : string) : string :=
  match s with
  | String c rest => if Ascii.eqb c " "%char then lstrip rest else s
  | EmptyString => EmptyString
  end.

Fixpoint rstrip (s : string) : string :=
  match s with
  | EmptyString => EmptyString
  | String c rest =>
      match rstrip rest with
      | EmptyString => if Ascii.eqb c " "%char then EmptyString else String c EmptyString
      | r => String c r
      end
  end.

Definition strip (s : string) : string := lstrip (rstrip s).

(** [s.upper()] on ASCII letters. *)
Definition upper_char (c : ascii) : ascii :=
  let n := nat_of_ascii c in
  if ((97 <=? n) && (n <=? 122))%nat then ascii_of_nat (n - 32) else c.

Fixpoint upper (s : string) : string :=
  match s with
  | EmptyString => EmptyString
  | String c rest => String (upper_char c) (upper rest)
  end.

(** [s.lstrip('/')]. *)
Fixpoint lstrip_slashes (s : string) : string :=
  match s with
  | String c rest => if Ascii.eqb c "/"%char then lstrip_slashes rest else s
  | EmptyString => EmptyString
  end.

(** [os.path.basename(s)]: what follows the last slash. *)
Fixpoint basename (s : string) : string :=
  match s with
  | EmptyString => EmptyString
  | String c rest =>
      if Ascii.eqb c "/"%char || contains "/" rest then basename rest else s
  end.

(** [s.split(sep)] for a one-character separator. *)
Fixpoint split_on (sep : ascii) (s : string) : list string :=
  match s with
  | EmptyString => [EmptyString]
  | String c rest =>
      if Ascii.eqb c sep then EmptyString :: split_on sep rest
      else match split_on sep rest with
           | [] => [String c EmptyString]
           | x :: xs => String c x :: xs
           end
  end.

(** [s.split('=', 1)], a missing value read as the empty string. *)
Fixpoint name_value (s : string) : string * string :=
  match s with
  | EmptyString => (EmptyString, EmptyString)
  | String c rest =>
      if Ascii.eqb c "="%char then (EmptyString, rest)
      else let (k, v) := name_value rest in (String c k, v)
  end.

Definition hex_value (c : ascii) : option nat :=
  let n := nat_of_ascii c in
  if ((48 <=? n) && (n <=? 57))%nat then Some (n - 48)
  else if ((65 <=? n) && (n <=? 70))%nat then Some (n - 55)
  else if ((97 <=? n) && (n <=? 102))%nat then Some (n - 87)
  else None.

(** [urllib.parse.unquote_plus]: a plus sign reads as a blank, [%XY] as
    the byte with that code; a percent sign not followed by two
    hexadecimal digits stays. *)
Fixpoint unquote_plus (s : string) : string :=
  match s with
  | EmptyString => EmptyString
  | String c rest =>
      if Ascii.eqb c "+"%char then String " "%char (unquote_plus rest)
      else if Ascii.eqb c "%"%char then
        match rest with
        | String a (String b rest') =>
            match hex_value a, hex_value b with
            | Some x, Some y => String (ascii_of_nat (16 * x + y)) (unquote_plus rest')
            | _, _ => String c (unquote_plus rest)
            end
        | _ => String c (unquote_plus rest)
        end
      else String c (unquote_plus rest)
  end.

(** [s.endswith(suffix)]. *)
Fixpoint ends_with (suffix s : string) : bool :=
  String.eqb s suffix ||
  match s with
  | EmptyString => false
  | String _ rest => ends_with suffix rest
  end.

(** [s.partition(':')[0]]: the part before the first colon. *)
Fixpoint before_colon (s : string) : string :=
  match s with
  | EmptyString => EmptyString
  | String c rest =>
      if Ascii.eqb c ":"%char then EmptyString else String c (before_colon rest)
  end.

(** [s.partition(';')[0]]: the part before the first semicolon. *)
Fixpoint before_semicolon (s : string) : string :=
  match s with
  | EmptyString => EmptyString
  | String c rest =>
      if Ascii.eqb c ";"%char then EmptyString else String c (before_semicolon rest)
  end.

End Text.

(* ------------------------------------------------------------------ *)
(** * The template renderer *)
(* ------------------------------------------------------------------ *)

(** [render_template_string] hands its source to jinja2.  The model covers
    the fragment of the template language made of literal data and variable
    blocks [{{ name }}]; on anything else ([{% ... %}] statements,
    [{# ... #}] comments, expressions that are not a plain name, an unclosed
    block) [render] answers [None], meaning "outside the modelled
    fragment".  The environment is Flask's: autoescaping on, the trailing
    newline not kept, line feeds as newline sequence, the default
    delimiters, no line statements. *)

Module jinja2.
Import Text.

(** What a name is bound to in the template context: nothing, a string,
    or an object whose printed form the model does not describe. *)
Inductive Binding : Type :=
| Undefined
| Str (value : string)
| Object.

Definition Context : Type := string -> Binding.

(** [markupsafe.escape], applied to every value under autoescaping. *)
Fixpoint escape (s : string) : string :=
  match s with
  | EmptyString => EmptyString
  | String c rest =>
      (if Ascii.eqb c "&"%char then "&amp;"
       else if Ascii.eqb c "<"%char then "&lt;"
       else if Ascii.eqb c ">"%char then "&gt;"
       else if Ascii.eqb c "'"%char then "&#39;"
       else if Ascii.eqb c "034"%char then "&#34;"
       else String c EmptyString) ++ escape rest
  end.

(** The lexer first splits the source at [\r\n], [\r] and [\n] and joins
    the lines again with the newline sequence [\n]. *)
Fixpoint normalize_newlines (s : string) : string :=
  match s with
  | EmptyString => EmptyString
  | String c rest =>
      if Ascii.eqb c "013"%char then
        match rest with
        | String d rest' =>
            if Ascii.eqb d "010"%char then String "010"%char (normalize_newlines rest')
            else String "010"%char (normalize_newlines rest)
        | EmptyString => String "010"%char EmptyString
        end
      else String c (normalize_newlines rest)
  end.

(** With [keep_trailing_newline] off, one final line feed is dropped. *)
Fixpoint strip_trailing_newline (s : string) : string :=
  match s with
  | EmptyString => EmptyString
  | String c EmptyString => if Ascii.eqb c "010"%char then EmptyString else s
  | String c rest => String c (strip_trailing_newline rest)
  end.

(** Names of the expression language: [[A-Za-z_][A-Za-z0-9_]*]. *)
Definition is_alpha (c : ascii) : bool :=
  let n := nat_of_ascii c in
  (((65 <=? n) && (n <=? 90)) || ((97 <=? n) && (n <=? 122)) || (n =? 95))%nat.

Definition is_digit (c : ascii) : bool :=
  let n := nat_of_ascii c in ((48 <=? n) && (n <=? 57))%nat.

Fixpoint all_name_chars (s : string) : bool :=
  match s with
  | EmptyString => true
  | String c rest => (is_alpha c || is_digit c) && all_name_chars rest
  end.

(** Words the expression grammar reserves; they are not variable names. *)
Definition reserved : list string :=
  ["true"; "false"; "none"; "True"; "False"; "None";
   "and"; "or"; "not"; "in"; "is"; "if"; "else"].

Definition is_name (s : string) : bool :=
  match s with
  | EmptyString => false
  | String c rest =>
      is_alpha c && all_name_chars rest
      && negb (existsb (String.eqb s) reserved)
  end.

(** A variable block prints the escaped value of its name; an undefined
    name prints as the empty string. *)
Definition eval_variable (ctx : Context) (expr : string) : option string :=
  let name := strip expr in
  if is_name name then
    match ctx name with
    | Str v => Some (escape v)
    | Undefined => Some EmptyString
    | Object => None
    end
  else None.

Inductive Mode : Type :=
| InData
| InVariable (acc : string).

(** One pass over the source.  In [InData] mode bytes are copied until the
    earliest block start; in [InVariable acc] mode the expression is
    collected up to the closing [}}]. *)
Fixpoint render_from (ctx : Context) (m : Mode) (s : string) : option string :=
  match m with
  | InData =>
      match s with
      | EmptyString => Some EmptyString
      | String c rest =>
          if Ascii.eqb c "{"%char then
            match rest with
            | String d rest' =>
                if Ascii.eqb d "{"%char then render_from ctx (InVariable EmptyString) rest'
                else if Ascii.eqb d "%"%char then None
                else if Ascii.eqb d "#"%char then None
                else option_map (String c) (render_from ctx InData rest)
            | EmptyString => Some (String c EmptyString)
            end
          else option_map (String c) (render_from ctx InData rest)
      end
  | InVariable acc =>
      match s with
      | EmptyString => None
      | String c rest =>
          if Ascii.eqb c "}"%char then
            match rest with
            | String d rest' =>
                if Ascii.eqb d "}"%char then
                  match eval_variable ctx acc, render_from ctx InData rest' with
                  | Some v, Some out => Some (v ++ out)
                  | _, _ => None
                  end
                else render_from ctx (InVariable (acc ++ String c EmptyString)) rest
            | EmptyString => None
            end
          else render_from ctx (InVariable (acc ++ String c EmptyString)) rest
      end
  end.

(** [Template(source).render(ctx)]. *)
Definition render (ctx : Context) (source : string) : option string :=
  render_from ctx InData (strip_trailing_newline (normalize_newlines source)).

(** The source contains none of the block starts [{{], [{%], [{#]. *)
Fixpoint directive_free (s : string) : bool :=
  match s with
  | EmptyString => true
  | String c rest =>
      match rest with
      | String d _ =>
          negb (Ascii.eqb c "{"%char
                && (Ascii.eqb d "{"%char || Ascii.eqb d "%"%char || Ascii.eqb d "#"%char))
      | EmptyString => true
      end && directive_free rest
  end.

(** The source contains no carriage return. *)
Fixpoint cr_free (s : string) : bool :=
  match s with
  | EmptyString => true
  | String c rest => negb (Ascii.eqb c "013"%char) && cr_free rest
  end.

(** The source does not end with a line feed. *)
Fixpoint ends_with_newline (s : string) : bool :=
  match s with
  | EmptyString => false
  | String c EmptyString => Ascii.eqb c "010"%char
  | String _ rest => ends_with_newline rest
  end.

End jinja2.

(* ------------------------------------------------------------------ *)
(** * The web framework *)
(* ------------------------------------------------------------------ *)

(** The part of Flask (and of Werkzeug beneath it) that [app.py] calls:
    the application object with its URL map, the [route] decorator, request
    dispatch with the standard error responses, [render_template_string]
    and [run].  Both are libraries the program imports; the definitions
    follow their behaviour in the current releases (Flask 3 on Werkzeug 3).
    Responses are those of the application object (its WSGI entry point
    [wsgi_app]), whatever server hosts it; [serve] is what the development
    server started by [run] answers. *)

Module flask.
Import Text.

(** ** Requests and responses *)

(** A request as it reaches the process: [method] is the method token of
    the request line ([REQUEST_METHOD]) and [path] its path ([PATH_INFO]),
    both as the client sent them. *)
Record Request : Type := mkRequest {
  method : string;
  path : string;
  query_string : string;
  request_headers : list (string * string);
  request_data : string
}.

Record Response : Type := mkResponse {
  status_code : Z;
  headers : list (string * string);
  data : string
}.

(** [request.method]: the token in upper case.  [request.path]: the path
    with its leading slashes reduced to one.  These are what routing
    compares. *)
Definition routing_method (req : Request) : string := upper (method req).
Definition routing_path (req : Request) : string := "/" ++ lstrip_slashes (path req).

Fixpoint get_header (name : string) (hs : list (string * string)) : option string :=
  match hs with
  | [] => None
  | (k, v) :: rest => if String.eqb k name then Some v else get_header name rest
  end.

(** [response.mimetype]: the media type of the [Content-Type] header,
    without its parameters. *)
Definition mimetype (r : Response) : option string :=
  option_map (fun v => strip (before_semicolon v)) (get_header "Content-Type" (headers r)).

(** [Response(body, status)] with Flask's default mimetype. *)
Definition make_response_of (status : Z) (extra : list (string * string))
    (body : string) : Response :=
  {| status_code := status;
     headers := ("Content-Type", "text/html; charset=utf-8")
                :: extra ++ [("Content-Length", decimal (String.length body))];
     data := body |}.

(** ** HTTP errors *)

Inductive HTTPException : Type :=
| NotFound
| MethodNotAllowed (valid_methods : list string).

Definition code (e : HTTPException) : Z :=
  match e with NotFound => 404 | MethodNotAllowed _ => 405 end.

Definition name (e : HTTPException) : string :=
  match e with
  | NotFound => "Not Found"
  | MethodNotAllowed _ => "Method Not Allowed"
  end.

Definition description (e : HTTPException) : string :=
  match e with
  | NotFound =>
      "The requested URL was not found on the server. If you entered the URL manually please check your spelling and try again."
  | MethodNotAllowed _ => "The method is not allowed for the requested URL."
  end.

Definition code_text (e : HTTPException) : string :=
  match e with NotFound => "404" | MethodNotAllowed _ => "405" end.

(** [HTTPException.get_body]: the error page every Werkzeug error shares. *)
Definition get_body (e : HTTPException) : string :=
  "<!doctype html>" ++ LF ++
  "<html lang=en>" ++ LF ++
  "<title>" ++ code_text e ++ " " ++ name e ++ "</title>" ++ LF ++
  "<h1>" ++ name e ++ "</h1>" ++ LF ++
  "<p>" ++ description e ++ "</p>" ++ LF.

(** [HTTPException.get_response]; a 405 also lists the valid methods. *)
Definition get_response (e : HTTPException) : Response :=
  make_response_of (code e)
    match e with
    | NotFound => []
    | MethodNotAllowed valid => [("Allow", join ", " valid)]
    end
    (get_body e).

(** ** The world outside a view function *)

(** What a view function can do besides computing its result: write a
    file, call another service, assign a module-level variable.  The
    world keeps the variables and the log of effects performed so far.
    It also holds what the framework reads from its surroundings: whether
    a name designates a regular file of the static folder; the hash of
    strings under the seed of this process, which decides the order in
    which a set of strings is iterated; whether a name is a file of the
    debugger's shared resources; the debugger's secret. *)
Inductive Effect : Type :=
| FileWrite (file contents : string)
| ExternalCall (target payload : string).

Record World : Type := mkWorld {
  globals : list (string * string);
  effects : list Effect;
  static_isfile : string -> bool;
  str_hash : string -> nat;
  debugger_resource : string -> bool;
  debugger_secret : string
}.

(** The same world with other variables and another log. *)
Definition with_state (w : World) (g : list (string * string)) (e : list Effect) : World :=
  {| globals := g; effects := e; static_isfile := static_isfile w;
     str_hash := str_hash w; debugger_resource := debugger_resource w;
     debugger_secret := debugger_secret w |}.

(** The result of running request-handling code: a value, a raised HTTP
    error, or behaviour the model does not describe. *)
Inductive Result (A : Type) : Type :=
| Return (a : A) (w : World)
| Raise (e : HTTPException) (w : World)
| Unmodelled.

Arguments Return {A} a w.
Arguments Raise {A} e w.
Arguments Unmodelled {A}.

(** Request-handling code reads the current request (the [request]
    proxy) and threads the world. *)
Definition M (A : Type) : Type := Request -> World -> Result A.

Definition ret {A} (a : A) : M A := fun _ w => Return a w.

Definition bind {A B} (m : M A) (k : A -> M B) : M B :=
  fun req w =>
    match m req w with
    | Return a w' => k a req w'
    | Raise e w' => Raise e w'
    | Unmodelled => Unmodelled
    end.

Definition current_request : M Request := fun req w => Return req w.
Definition abort {A} (e : HTTPException) : M A := fun _ w => Raise e w.
Definition unmodelled {A} : M A := fun _ _ => Unmodelled.

Definition perform (e : Effect) : M unit :=
  fun _ w => Return tt (with_state w (globals w) (effects w ++ [e])).

Definition assign_global (k v : string) : M unit :=
  fun _ w => Return tt (with_state w ((k, v) :: globals w) (effects w)).

Definition hash_of_strings : M (string -> nat) :=
  fun _ w => Return (str_hash w) w.

Definition isfile_static (filename : string) : M bool :=
  fun _ w => Return (static_isfile w filename) w.

Notation "x <- c1 ;; c2" := (bind c1 (fun x => c2))
  (at level 61, c1 at next level, right associativity).

(** ** Templates *)

(** [repr(request)], the text a template prints for [{{ request }}]. *)
Definition url (req : Request) : string :=
  "http://" ++
  match get_header "Host" (request_headers req) with
  | Some h => h
  | None => "localhost"
  end ++ path req ++
  match query_string req with
  | EmptyString => EmptyString
  | q => "?" ++ q
  end.

Definition request_repr (req : Request) : string :=
  "<Request '" ++ url req ++ "' [" ++ method req ++ "]>".

(** Names Flask and jinja2 bind to objects in every template. *)
Definition injected_objects : list string :=
  ["g"; "session"; "config"; "url_for"; "get_flashed_messages";
   "range"; "dict"; "lipsum"; "cycler"; "joiner"; "namespace"].

(** [update_template_context]: the keyword arguments of the call come
    first, then [request] and the other injected names. *)
Definition template_context (req : Request) (context : list (string * string))
    : jinja2.Context :=
  fun name =>
    match get_header name context with
    | Some v => jinja2.Str v
    | None =>
        if String.eqb name "request" then jinja2.Str (request_repr req)
        else if existsb (String.eqb name) injected_objects then jinja2.Object
        else jinja2.Undefined
    end.

(** [render_template_string(source, **context)]. *)
Definition render_template_string (source : string)
    (context : list (string * string)) : M string :=
  req <- current_request ;;
  match jinja2.render (template_context req context) source with
  | Some out => ret out
  | None => unmodelled
  end.

(** ** The URL map *)

(** Rule patterns: a fixed path, or a prefix followed by one
    [<path:arg>] converter (the shape of the static-files rule).  Other
    converter patterns are kept unparsed. *)
Inductive Pattern : Type :=
| Static (s : string)
| PathUnder (prefix arg : string)
| Dynamic (raw : string).

Definition View : Type := list (string * string) -> M string.

Record Rule : Type := mkRule {
  rule : Pattern;
  endpoint : string;
  methods : list string;
  provide_automatic_options : bool
}.

Record App : Type := mkApp {
  import_name : string;
  url_map : list Rule;
  view_functions : list (string * View);
  debug : bool
}.

Definition mem (x : string) (l : list string) : bool := existsb (String.eqb x) l.

(** A Python set of strings, kept as a list without repetition; the
    position of an element in the list has no meaning. *)
Definition add (x : string) (l : list string) : list string :=
  if mem x l then l else l ++ [x].

Definition union (l1 l2 : list string) : list string := fold_left (fun acc x => add x acc) l2 l1.

(** Iterating over a set ([list(s)], [", ".join(s)]) visits its elements
    in an order the hashes decide; equal hashes are told apart by the
    strings themselves. *)
Definition before (h : string -> nat) (a b : string) : bool :=
  (h a <? h b)%nat || ((h a =? h b)%nat && String.leb a b).

Fixpoint insert_by (h : string -> nat) (x : string) (l : list string) : list string :=
  match l with
  | [] => [x]
  | y :: ys => if before h x y then x :: l else y :: insert_by h x ys
  end.

Definition iteration_order (h : string -> nat) (s : list string) : list string :=
  fold_right (insert_by h) [] s.

Definition parse_rule (s : string) : Pattern :=
  if contains "<" s then Dynamic s else Static s.

(** [Flask.add_url_rule] followed by [werkzeug.routing.Rule.__init__]:
    the methods default to [GET] and are upper-cased; [OPTIONS] is added
    and answered automatically unless the caller lists it; [HEAD] is added
    whenever [GET] is present.  The methods form a set. *)
Definition add_url_rule (pat : Pattern) (name : string) (view_func : View)
    (methods_option : option (list string)) (app : App) : App :=
  let methods0 := map upper (match methods_option with Some ms => ms | None => ["GET"] end) in
  let automatic := negb (mem "OPTIONS" methods0) in
  let methods1 := if automatic then add "OPTIONS" methods0 else methods0 in
  let methods2 := if mem "GET" methods1 && negb (mem "HEAD" methods1)
                  then add "HEAD" methods1 else methods1 in
  {| import_name := import_name app;
     url_map := url_map app ++
                [{| rule := pat; endpoint := name; methods := methods2;
                    provide_automatic_options := automatic |}];
     view_functions := (name, view_func) :: view_functions app;
     debug := debug app |}.

(** [send_static_file(filename)]: the standard 404 unless the name
    designates a regular file of the static folder.  Sending an existing
    file (guessed media type, caching headers, conditional responses) is
    not described. *)
Definition send_static_file : View :=
  fun view_args =>
    match get_header "filename" view_args with
    | Some filename =>
        b <- isfile_static filename ;;
        if b then unmodelled else abort NotFound
    | None => unmodelled
    end.

(** [Flask(import_name)]: an application whose URL map already holds the
    rule [/static/<path:filename>] (the static folder defaults to
    ["static"]). *)
Definition Flask (import_name : string) : App :=
  add_url_rule (PathUnder "/static/" "filename") "static" send_static_file None
    {| import_name := import_name; url_map := []; view_functions := []; debug := false |}.

(** A Python function without parameters, called with the view arguments
    of the matched rule as keyword arguments. *)
Definition nullary (f : M string) : View :=
  fun view_args => match view_args with [] => f | _ => unmodelled end.

(** [@app.route(rule)] applied to [def f(): ...]; the endpoint is the
    function's name. *)
Definition route (rule : string) (methods_option : option (list string))
    (f_name : string) (f : M string) (app : App) : App :=
  add_url_rule (parse_rule rule) f_name (nullary f) methods_option app.

(** ** Matching *)

Inductive PathMatch : Type :=
| NoMatch
| Matches (view_args : list (string * string))
| MatchUnmodelled.

Fixpoint strip_prefix (p s : string) : option string :=
  match p with
  | EmptyString => Some s
  | String a p' =>
      match s with
      | String b s' => if Ascii.eqb a b then strip_prefix p' s' else None
      | EmptyString => None
      end
  end.

(** A fixed rule matches its own path.  A [<path:arg>] converter matches a
    non-empty remainder that does not start with a slash.  Werkzeug
    answers a path that fits a rule only after repeated slashes are
    merged with a redirect to the merged URL; that redirect is not
    described.  The path given here is the routing path. *)
Definition match_pattern (p : Pattern) (path : string) : PathMatch :=
  match p with
  | Static s => if String.eqb s path then Matches [] else NoMatch
  | PathUnder prefix arg =>
      match strip_prefix prefix path with
      | Some (String c rest) =>
          if Ascii.eqb c "/"%char then MatchUnmodelled
          else Matches [(arg, String c rest)]
      | _ => NoMatch
      end
  | Dynamic _ => MatchUnmodelled
  end.

Inductive Routed : Type :=
| Found (r : Rule) (view_args : list (string * string))
| Failed (e : HTTPException)
| RouteUnmodelled.

(** The matcher: the first rule that fits path and method; when rules fit
    the path but none the method, a 405 listing the set of methods they
    accept, in the order its iteration gives; otherwise a 404.  Werkzeug
    tries overlapping rules by specificity rather than in the order of
    registration; the two rules of this application fit no common path. *)
Fixpoint match_rules (h : string -> nat) (rules : list Rule) (method path : string)
    (have_match_for : list string) : Routed :=
  match rules with
  | [] =>
      match have_match_for with
      | [] => Failed NotFound
      | valid => Failed (MethodNotAllowed (iteration_order h valid))
      end
  | r :: rest =>
      match match_pattern (rule r) path with
      | Matches view_args =>
          if mem method (methods r) then Found r view_args
          else match_rules h rest method path (union have_match_for (methods r))
      | NoMatch => match_rules h rest method path have_match_for
      | MatchUnmodelled => RouteUnmodelled
      end
  end.

Definition has_root_rule (rules : list Rule) : bool :=
  existsb (fun r => match rule r with Static s => String.eqb s "/" | _ => false end) rules.

(** [MapAdapter.match] on the request: the method is compared in upper
    case and the path with its leading slashes reduced to one.  An empty
    path is not given a slash: where the map has a rule for [/], it is
    answered with a redirect (308) to [/], which is not described. *)
Definition match_request (app : App) (req : Request) (h : string -> nat) : Routed :=
  match path req with
  | EmptyString =>
      if has_root_rule (url_map app) then RouteUnmodelled
      else match_rules h (url_map app) (routing_method req) EmptyString []
  | _ => match_rules h (url_map app) (routing_method req) (routing_path req) []
  end.

(** [MapAdapter.allowed_methods]: the methods some rule accepts on the
    path of the request, found by matching with a method no rule has. *)
Definition allowed_methods (app : App) (req : Request) (h : string -> nat) : list string :=
  match match_rules h (url_map app) "--" (routing_path req) [] with
  | Failed (MethodNotAllowed valid) => valid
  | _ => []
  end.

Fixpoint lookup_view (name : string) (views : list (string * View)) : option View :=
  match views with
  | [] => None
  | (k, v) :: rest => if String.eqb k name then Some v else lookup_view name rest
  end.

(** ** Dispatch *)

(** [make_default_options_response]: an empty 200 naming the methods
    allowed on the path. *)
Definition make_default_options_response (allowed : list string) : Response :=
  make_response_of 200 [("Allow", join ", " allowed)] EmptyString.

(** [make_response] for a view that returned a [str]. *)
Definition make_response (rv : string) : Response := make_response_of 200 [] rv.

(** [dispatch_request]: a routing failure is raised; [OPTIONS] is
    answered for the rule; otherwise the view function of the rule's
    endpoint runs. *)
Definition dispatch_request (app : App) : M Response :=
  req <- current_request ;;
  h <- hash_of_strings ;;
  match match_request app req h with
  | Failed e => abort e
  | RouteUnmodelled => unmodelled
  | Found r view_args =>
      if provide_automatic_options r && String.eqb (routing_method req) "OPTIONS"
      then ret (make_default_options_response (allowed_methods app req h))
      else match lookup_view (endpoint r) (view_functions app) with
           | Some view => rv <- view view_args ;; ret (make_response rv)
           | None => unmodelled
           end
  end.

(** [full_dispatch_request]: an HTTP error raised on the way becomes its
    standard response (the application registers no error handler). *)
Definition full_dispatch_request (app : App) (req : Request) (w : World)
    : option (Response * World) :=
  match dispatch_request app req w with
  | Return r w' => Some (r, w')
  | Raise e w' => Some (get_response e, w')
  | Unmodelled => None
  end.

(** What goes on the wire: the answer to a [HEAD] request keeps status
    and headers and carries no body.  Here Werkzeug compares the method
    token as the client sent it. *)
Definition get_app_iter (req : Request) (r : Response) : Response :=
  if String.eqb (method req) "HEAD"
  then {| status_code := status_code r; headers := headers r; data := EmptyString |}
  else r.

(** [app.wsgi_app]: one request in, one response out. *)
Definition wsgi_app (app : App) (req : Request) (w : World)
    : option (Response * World) :=
  match full_dispatch_request app req w with
  | Some (r, w') => Some (get_app_iter req r, w')
  | None => None
  end.

(** A server process answers requests one after the other, each in the
    world the previous one left.  Where the model does not describe the
    handling of a request, nothing is assumed about the response or the
    world it leaves. *)
Inductive answers (app : App) : World -> Request -> Response -> World -> Prop :=
| answers_modelled w req r w' :
    wsgi_app app req w = Some (r, w') -> answers app w req r w'
| answers_unmodelled w req r w' :
    wsgi_app app req w = None -> answers app w req r w'.

Inductive history (app : App) : World -> list (Request * Response) -> World -> Prop :=
| history_nil w : history app w [] w
| history_cons w req r w' rest w'' :
    answers app w req r w' ->
    history app w' rest w'' ->
    history app w ((req, r) :: rest) w''.

(** ** Starting the development server *)

Record Server : Type := mkServer {
  host : string;
  port : Z;
  application : App;
  use_reloader : bool;
  use_debugger : bool;
  threaded : bool
}.

(** [app.run(host=None, port=None, debug=None)]: an explicit [debug]
    sets [app.debug]; host and port default to [127.0.0.1] and [5000];
    reloader and debugger follow the debug flag. *)
Definition run (app : App) (host_option : option string) (port_option : option Z)
    (debug_option : option bool) : Server :=
  let d := match debug_option with Some b => b | None => debug app end in
  {| host := match host_option with
             | Some h => if String.eqb h EmptyString then "127.0.0.1" else h
             | None => "127.0.0.1"
             end;
     port := match port_option with Some p => p | None => 5000%Z end;
     application := {| import_name := import_name app; url_map := url_map app;
                       view_functions := view_functions app; debug := d |};
     use_reloader := d;
     use_debugger := d;
     threaded := true |}.

(** ** The debugger in front of the application *)

(** [request.args]: the query string split at [&], each piece at its
    first [=], names and values unquoted; empty pieces are skipped. *)
Definition parse_qsl (q : string) : list (string * string) :=
  flat_map (fun piece =>
              match piece with
              | EmptyString => []
              | _ => let (k, v) := name_value piece in [(unquote_plus k, unquote_plus v)]
              end)
           (split_on "&"%char q).

Definition args (req : Request) : list (string * string) := parse_qsl (query_string req).

Definition arg_is (name value : string) (req : Request) : bool :=
  match get_header name (args req) with
  | Some v => String.eqb v value
  | None => false
  end.

(** The request carries the argument [__debugger__=yes]. *)
Definition debugger_request (req : Request) : bool := arg_is "__debugger__" "yes" req.

(** [DebuggedApplication.get_resource]: the standard 404 unless the name
    is a file of the debugger's shared resources.  Sending such a file
    (guessed media type, validators, conditional responses) is not
    described. *)
Definition get_resource (filename : string) (req : Request) (w : World)
    : option (Response * World) :=
  if debugger_resource w (basename filename) then None
  else Some (get_app_iter req (get_response NotFound), w).

(** [DebuggedApplication.__call__].  A request with [__debugger__=yes] is
    the debugger's own when it asks for a resource ([cmd=resource] with a
    name in [f]) or presents the debugger's secret (PIN handling and
    console commands, not described).  The path [/console] shows the
    interactive console, not described either.  Every other request goes
    to the application. *)
Definition DebuggedApplication (inner : Request -> World -> option (Response * World))
    (req : Request) (w : World) : option (Response * World) :=
  if debugger_request req then
    match get_header "f" (args req) with
    | Some (String c rest) =>
        if arg_is "cmd" "resource" req then get_resource (String c rest) req w
        else if arg_is "s" (debugger_secret w) req then None
        else inner req w
    | _ =>
        if arg_is "s" (debugger_secret w) req then None
        else inner req w
    end
  else if String.eqb (routing_path req) "/console" then None
  else inner req w.

(** The hosts the debugger trusts: [localhost] and its subdomains,
    [127.0.0.1], and the host the server was started on. *)
Definition host_is_trusted (s : Server) (hostname : string) : bool :=
  String.eqb hostname "localhost" || ends_with ".localhost" hostname
  || String.eqb hostname "127.0.0.1" || String.eqb hostname (host s).

(** The request names, in its [Host] header, a host the debugger trusts. *)
Definition trusted_host (s : Server) (req : Request) : bool :=
  match get_header "Host" (request_headers req) with
  | Some h => host_is_trusted s (before_colon h)
  | None => false
  end.

(** What the server started by [run] answers: with the debugger in use,
    [run_simple] wraps the application in [DebuggedApplication].  Recent
    releases of Werkzeug refuse, in debug mode, a request that names a
    host the debugger does not trust, where older ones serve it; such
    requests are not described. *)
Definition serve (s : Server) (req : Request) (w : World) : option (Response * World) :=
  if use_debugger s then
    if trusted_host s req
    then DebuggedApplication (wsgi_app (application s)) req w
    else None
  else wsgi_app (application s) req w.

End flask.

(* ------------------------------------------------------------------ *)
(** * The application: [app.py] *)
(* ------------------------------------------------------------------ *)

Import Text.

(** The literal passed to [render_template_string], line by line.  It opens
    with the line feed that follows the three quotes and closes with the
    four blanks that precede the closing quotes. *)
Definition TEMPLATE : string :=
  LF ++
  "    <!DOCTYPE html>" ++ LF ++
  "    <html>" ++ LF ++
  "    <head>" ++ LF ++
  "        <title>Microservices Architecture</title>" ++ LF ++
  "        <style>" ++ LF ++
  "            body { font-family: Arial; background: linear-gradient(135deg, #667eea 0%, #764ba2 100%); min-height: 100vh; display: flex; align-items: center; justify-content: center; }" ++ LF ++
  "            .container { background: white; padding: 50px; border-radius: 20px; text-align: center; box-shadow: 0 20px 40px rgba(0,0,0,0.1); }" ++ LF ++
  "            h1 { color: #333; margin-bottom: 20px; }" ++ LF ++
  "            p { color: #666; font-size: 18px; margin-bottom: 15px; }" ++ LF ++
  "        </style>" ++ LF ++
  "    </head>" ++ LF ++
  "    <body>" ++ LF ++
  "        <div class=" ++ DQ ++ "container" ++ DQ ++ ">" ++ LF ++
  "            <h1>🏗️ Microservices Architecture</h1>" ++ LF ++
  "            <p>Professional microservices architecture implementation</p>" ++ LF ++
  "            <p>Scalable, distributed system design</p>" ++ LF ++
  "            <p>Docker containers, API Gateway, Service Discovery</p>" ++ LF ++
  "        </div>" ++ LF ++
  "    </body>" ++ LF ++
  "    </html>" ++ LF ++
  "    ".

(** [def index(): return render_template_string('''...''')] *)
Definition index : flask.M string :=
  flask.render_template_string TEMPLATE [].

(** [app = Flask(__name__)] followed by [@app.route('/')] on [index]. *)
Definition app (__name__ : string) : flask.App :=
  flask.route "/" None "index" index (flask.Flask __name__).

(** [if __name__ == '__main__': app.run(debug=True, host='0.0.0.0', port=5000)]:
    the server the script starts, if it starts one. *)
Definition main (__name__ : string) : option flask.Server :=
  if String.eqb __name__ "__main__"
  then Some (flask.run (app __name__) (Some "0.0.0.0") (Some 5000%Z) (Some true))
  else None.

(** The request [GET /] and its variants. *)
Definition is_get_root (req : flask.Request) : Prop :=
  flask.method req = "GET" /\ flask.path req = "/".


(** The files of the debugger's shared resources. *)
Definition shared_resources : list string :=
  ["ICON_LICENSE.md"; "console.png"; "debugger.js"; "less.png"; "more.png"; "style.css"].

(** A world with no static files, no variables and no effect performed:
    the one the repository starts in (it ships no static folder).  Its
    hash puts shorter strings first, so that the methods of a rule are
    iterated as GET, HEAD, OPTIONS. *)
Definition initial_world : flask.World :=
  flask.mkWorld [] [] (fun _ => false) String.length
    (fun f => flask.mem f shared_resources) "kV3pQ8ZrT1xWm5LdYc0a".

(** Requests used as concrete inputs below. *)
Definition get_root : flask.Request := flask.mkRequest "GET" "/" "" [] "".
Definition get_root_with_query : flask.Request :=
  flask.mkRequest "GET" "/" "page=2&debug=1" [("Host", "example.org"); ("Accept", "*/*")] "payload".
Definition head_root : flask.Request := flask.mkRequest "HEAD" "/" "" [] "".
Definition options_root : flask.Request := flask.mkRequest "OPTIONS" "/" "" [] "".
Definition post_root : flask.Request := flask.mkRequest "POST" "/" "" [] "a=1".
Definition get_missing : flask.Request := flask.mkRequest "GET" "/missing" "" [] "".
Definition options_static : flask.Request := flask.mkRequest "OPTIONS" "/static/x" "" [] "".
Definition get_double_slash : flask.Request := flask.mkRequest "GET" "//" "" [] "".
Definition lowercase_get_root : flask.Request := flask.mkRequest "get" "/" "" [] "".
Definition browser_get_missing : flask.Request :=
  flask.mkRequest "GET" "/missing" "" [("Host", "localhost:5000")] "".

(** The server the script starts. *)
Definition dev_server : flask.Server :=
  flask.run (app "__main__") (Some "0.0.0.0") (Some 5000%Z) (Some true).

(** The page as a response object. *)
Definition page : flask.Response := flask.make_response TEMPLATE.



(** What the page says. *)
Definition has_page_contents (body : string) : Prop :=
  Substring "<title>Microservices Architecture</title>" body /\
  Substring "<h1>🏗️ Microservices Architecture</h1>" body /\
  Substring "<p>Professional microservices architecture implementation</p>" body /\
  Substring "<p>Scalable, distributed system design</p>" body /\
  Substring "<p>Docker containers, API Gateway, Service Discovery</p>" body /\
  Substring "Microservices Architecture" body /\
  Substring "Docker containers, API Gateway, Service Discovery" body.

(** How the literal is laid out: it starts with a line feed and the
    indentation, so not with the document type; every line after the first
    line feed is indented by four blanks; a line feed and four blanks
    follow the closing tag. *)
Definition has_literal_layout (body : string) : Prop :=
  ~ StartsWith "<!DOCTYPE html>" body /\
  StartsWith (LF ++ "    <!DOCTYPE html>") body /\
  (exists ls, lines body = EmptyString :: ls /\ Forall (StartsWith "    ") ls) /\
  EndsWith ("</html>" ++ LF ++ "    ") body.

(** Two handlers the application does not have, for comparison: one that
    logs to a file before answering, one whose template prints the
    request. *)
Definition logging_index : flask.M string :=
  flask.bind (flask.perform (flask.FileWrite "access.log" "GET /")) (fun _ => index).

Definition echo_request : flask.M string :=
  flask.render_template_string "{{ request }}" [].

(** A history used as concrete input: the page is fetched, a form is
    posted, the page is fetched again with a query string. *)
Definition sample_history : list (flask.Request * flask.Response) :=
  [(get_root, page);
   (post_root, flask.get_response (flask.MethodNotAllowed ["GET"; "HEAD"; "OPTIONS"]));
   (get_root_with_query, page)].

(** The two rules of the application's URL map. *)
Definition static_rule : flask.Rule :=
  flask.mkRule (flask.PathUnder "/static/" "filename") "static" ["GET"; "OPTIONS"; "HEAD"] true.
Definition index_rule : flask.Rule :=
  flask.mkRule (flask.Static "/") "index" ["GET"; "OPTIONS"; "HEAD"] true.

(** The set of methods both rules accept, the order in which a world
    iterates it, and the two answers that name it. *)
Definition accepted : list string := ["GET"; "OPTIONS"; "HEAD"].

Definition allow (w : flask.World) : list string :=
  flask.iteration_order (flask.str_hash w) accepted.

Definition not_allowed (w : flask.World) : flask.Response :=
  flask.get_response (flask.MethodNotAllowed (allow w)).

Definition options_answer (w : flask.World) : flask.Response :=
  flask.make_default_options_response (allow w).

Definition not_found : flask.Response := flask.get_response flask.NotFound.

(** The answers of the application tabulated by path and method, as a
    device for reasoning about all requests at once; [wsgi_app_table]
    below shows that [wsgi_app] computes exactly this.  [None] stands for
    the cases the model does not describe: the redirects (empty path,
    [/static//...]) and the sending of an existing static file. *)
Definition table (req : flask.Request) (w : flask.World) : option flask.Response :=
  let m := flask.routing_method req in
  let p := flask.routing_path req in
  match flask.path req with
  | EmptyString => None
  | _ =>
      if String.eqb p "/" then
        if negb (flask.mem m accepted) then Some (not_allowed w)
        else if String.eqb m "OPTIONS" then Some (options_answer w)
        else Some (flask.get_app_iter req page)
      else
        match flask.strip_prefix "/static/" p with
        | Some (String c rest) =>
            if Ascii.eqb c "/"%char then None
            else if negb (flask.mem m accepted) then Some (not_allowed w)
            else if String.eqb m "OPTIONS" then Some (options_answer w)
            else if flask.static_isfile w (String c rest) then None
            else Some (flask.get_app_iter req not_found)
        | _ => Some (flask.get_app_iter req not_found)
        end
  end.

(** The same request asked with GET. *)
Definition as_get (req : flask.Request) : flask.Request :=
  flask.mkRequest "GET" (flask.path req) (flask.query_string req)
    (flask.request_headers req) (flask.request_data req).

(** A response without its body. *)
Definition without_body (r : flask.Response) : flask.Response :=
  flask.mkResponse (flask.status_code r) (flask.headers r) EmptyString.

(** A world in which things have happened: a variable is set, effects are
    logged, the static folder holds a style sheet. *)
Definition busy_world : flask.World :=
  flask.mkWorld [("hits", "3")]
    [flask.FileWrite "access.log" "GET /"; flask.ExternalCall "http://registry/" "ping"]
    (String.eqb "style.css") String.length
    (fun f => flask.mem f shared_resources) "kV3pQ8ZrT1xWm5LdYc0a".

Definition head_missing_static : flask.Request :=
  flask.mkRequest "HEAD" "/static/logo.png" "" [] "".
Definition get_root_other_client : flask.Request :=
  flask.mkRequest "GET" "/" "q=<script>" [("Cookie", "session=abc")] "x".

(* ------------------------------------------------------------------ *)
(** * Facts about byte strings *)
(* ------------------------------------------------------------------ *)

Section TextFacts.

Lemma prefix_StartsWith (p s : string) :
  prefix p s = true <-> StartsWith p s.
Proof.
  revert s; induction p as [|a p IH]; intros s; split.
  - intros _. exists s. reflexivity.
  - intros _. destruct s; reflexivity.
  - destruct s as [|b s]; simpl; [discriminate|].
    destruct (ascii_dec a b) as [->|]; [|discriminate].
    intros H. apply IH in H. destruct H as [rest ->].
    exists rest. reflexivity.
  - intros [rest ->]. simpl.
    destruct (ascii_dec a a) as [_|n]; [|contradiction].
    apply IH. exists rest. reflexivity.
Qed.

Lemma not_prefix_not_StartsWith (p s : string) :
  prefix p s = false -> ~ StartsWith p s.
Proof.
  intros H Hs. apply prefix_StartsWith in Hs. congruence.
Qed.

Lemma contains_Substring (needle hay : string) :
  contains needle hay = true -> Substring needle hay.
Proof.
  induction hay as [|c hay IH]; intros H.
  - change (prefix needle EmptyString || false = true) in H.
    rewrite orb_false_r in H. apply prefix_StartsWith in H.
    destruct H as [rest ->]. exists EmptyString, rest. reflexivity.
  - change (prefix needle (String c hay) || contains needle hay = true) in H.
    apply orb_true_iff in H. destruct H as [H|H].
    + apply prefix_StartsWith in H. destruct H as [rest ->].
      exists EmptyString, rest. reflexivity.
    + destruct (IH H) as (before & after & ->).
      exists (String c before), after. reflexivity.
Qed.

Lemma Substring_contains (needle hay : string) :
  Substring needle hay -> contains needle hay = true.
Proof.
  intros (before & after & ->).
  induction before as [|c before IH].
  - assert (Hp : prefix needle (needle ++ after) = true)
      by (apply prefix_StartsWith; exists after; reflexivity).
    change (EmptyString ++ needle ++ after) with (needle ++ after).
    destruct (needle ++ after);
      unfold contains; fold contains; rewrite Hp; reflexivity.
  - change (prefix needle (String c (before ++ needle ++ after))
            || contains needle (before ++ needle ++ after) = true).
    rewrite IH. apply orb_true_r.
Qed.

Lemma strip_prefix_Some (p s rest : string) :
  flask.strip_prefix p s = Some rest -> s = p ++ rest.
Proof.
  revert s; induction p as [|a p IH]; intros s; simpl.
  - intros [= ->]. reflexivity.
  - destruct s as [|b s]; [discriminate|].
    destruct (Ascii.eqb_spec a b) as [->|]; [|discriminate].
    intros H. rewrite (IH _ H). reflexivity.
Qed.


End TextFacts.

(* ------------------------------------------------------------------ *)
(** * Facts about the renderer *)
(* ------------------------------------------------------------------ *)

Section RendererFacts.

Variable ctx : jinja2.Context.

(** A source without block starts is copied as it is. *)
Lemma render_from_directive_free (s : string) :
  jinja2.directive_free s = true ->
  jinja2.render_from ctx jinja2.InData s = Some s.
Proof.
  induction s as [|c s IH]; [reflexivity|].
  intros H. simpl in H. apply andb_true_iff in H. destruct H as [Hc Hs].
  specialize (IH Hs). simpl.
  destruct (Ascii.eqb c "{") eqn:Ec.
  - destruct s as [|d s']; [reflexivity|].
    simpl in Hc. apply negb_true_iff in Hc.
    destruct (Ascii.eqb d "{") eqn:E1; [discriminate|].
    destruct (Ascii.eqb d "%") eqn:E2; [discriminate|].
    destruct (Ascii.eqb d "#") eqn:E3; [discriminate|].
    rewrite IH. reflexivity.
  - rewrite IH. reflexivity.
Qed.

Lemma normalize_newlines_cr_free (s : string) :
  jinja2.cr_free s = true -> jinja2.normalize_newlines s = s.
Proof.
  induction s as [|c s IH]; [reflexivity|].
  simpl. intros H. apply andb_true_iff in H. destruct H as [Hc Hs].
  apply negb_true_iff in Hc. rewrite Hc, (IH Hs). reflexivity.
Qed.

Lemma strip_trailing_newline_none (s : string) :
  jinja2.ends_with_newline s = false -> jinja2.strip_trailing_newline s = s.
Proof.
  induction s as [|c s IH]; [reflexivity|].
  destruct s as [|d s'].
  - simpl. intros ->. reflexivity.
  - intros H. change (jinja2.ends_with_newline (String d s') = false) in H.
    change (String c (jinja2.strip_trailing_newline (String d s')) = String c (String d s')).
    rewrite (IH H). reflexivity.
Qed.

(** Rendering is the identity on a source that has no block start, no
    carriage return and no final line feed. *)
Lemma render_plain (s : string) :
  jinja2.directive_free s = true ->
  jinja2.cr_free s = true ->
  jinja2.ends_with_newline s = false ->
  jinja2.render ctx s = Some s.
Proof.
  intros Hd Hc Hn. unfold jinja2.render.
  rewrite (normalize_newlines_cr_free _ Hc), (strip_trailing_newline_none _ Hn).
  apply render_from_directive_free, Hd.
Qed.

(** [directive_free] is the absence of the three block starts. *)
Lemma directive_free_contains (s : string) :
  contains "{{" s = false -> contains "{%" s = false -> contains "{#" s = false ->
  jinja2.directive_free s = true.
Proof.
  induction s as [|c s IH]; [reflexivity|].
  intros H1 H2 H3.
  unfold contains in H1, H2, H3; fold contains in H1, H2, H3.
  apply orb_false_iff in H1, H2, H3.
  destruct H1 as [P1 T1], H2 as [P2 T2], H3 as [P3 T3].
  simpl. rewrite (IH T1 T2 T3), andb_true_r.
  destruct s as [|d s']; [reflexivity|].
  apply negb_true_iff.
  destruct (Ascii.eqb_spec c "{") as [->|]; [|reflexivity].
  assert (Hstart : forall e, d = e ->
            prefix (String "{" (String e EmptyString)) (String "{" (String d s')) = true).
  { intros e ->. apply prefix_StartsWith. exists s'. reflexivity. }
  destruct (Ascii.eqb_spec d "{") as [E|].
  { rewrite (Hstart _ E) in P1. discriminate. }
  destruct (Ascii.eqb_spec d "%") as [E|].
  { rewrite (Hstart _ E) in P2. discriminate. }
  destruct (Ascii.eqb_spec d "#") as [E|].
  { rewrite (Hstart _ E) in P3. discriminate. }
  reflexivity.
Qed.

End RendererFacts.

(* ------------------------------------------------------------------ *)
(** * Facts about the application *)
(* ------------------------------------------------------------------ *)



Lemma TEMPLATE_directive_free : jinja2.directive_free TEMPLATE = true.
Proof. vm_compute. reflexivity. Qed.

Lemma TEMPLATE_cr_free : jinja2.cr_free TEMPLATE = true.
Proof. vm_compute. reflexivity. Qed.

Lemma TEMPLATE_no_final_newline : jinja2.ends_with_newline TEMPLATE = false.
Proof. vm_compute. reflexivity. Qed.

Lemma render_TEMPLATE (ctx : jinja2.Context) :
  jinja2.render ctx TEMPLATE = Some TEMPLATE.
Proof.
  apply render_plain.
  - exact TEMPLATE_directive_free.
  - exact TEMPLATE_cr_free.
  - exact TEMPLATE_no_final_newline.
Qed.

Lemma render_template_string_TEMPLATE (context : list (string * string))
    (req : flask.Request) (w : flask.World) :
  flask.render_template_string TEMPLATE context req w = flask.Return TEMPLATE w.
Proof.
  unfold flask.render_template_string, flask.bind, flask.current_request.
  rewrite render_TEMPLATE. reflexivity.
Qed.

Lemma index_returns (req : flask.Request) (w : flask.World) :
  index req w = flask.Return TEMPLATE w.
Proof. apply render_template_string_TEMPLATE. Qed.

Lemma app_url_map (n : string) : flask.url_map (app n) = [static_rule; index_rule].
Proof. reflexivity. Qed.

Lemma app_view_functions (n : string) :
  flask.view_functions (app n)
  = [("index", flask.nullary index); ("static", flask.send_static_file)].
Proof. reflexivity. Qed.


Lemma page_data : flask.data page = TEMPLATE.
Proof. reflexivity. Qed.


Lemma page_mimetype : flask.mimetype page = Some "text/html".
Proof. vm_compute. reflexivity. Qed.


(** ** Sets and their iteration *)




(** ** All requests at once *)


(** A path that [strip_prefix] splits behind [/static/] into a remainder
    starting with a slash starts with [/static//]. *)
Lemma strip_prefix_double_slash (p rest : string) :
  flask.strip_prefix "/static/" p = Some (String "/" rest) ->
  prefix "/static//" p = true.
Proof.
  intros H. apply strip_prefix_Some in H. subst p.
  apply prefix_StartsWith. exists rest. reflexivity.
Qed.

Lemma not_accepted (m : string) :
  flask.mem m accepted = false ->
  String.eqb m "GET" = false /\ String.eqb m "OPTIONS" = false /\ String.eqb m "HEAD" = false.
Proof.
  unfold flask.mem, accepted, existsb. intros H.
  destruct (String.eqb m "GET"); [discriminate|].
  destruct (String.eqb m "OPTIONS"); [discriminate|].
  destruct (String.eqb m "HEAD"); [discriminate|].
  repeat split.
Qed.

Lemma accepted_cases (m : string) :
  flask.mem m accepted = true -> m = "GET" \/ m = "OPTIONS" \/ m = "HEAD".
Proof.
  unfold flask.mem, accepted, existsb. intros H.
  destruct (String.eqb_spec m "GET"); [left; assumption|].
  destruct (String.eqb_spec m "OPTIONS"); [right; left; assumption|].
  destruct (String.eqb_spec m "HEAD"); [right; right; assumption|discriminate].
Qed.


(** Upper-casing leaves a token that is already in upper case alone; so a
    token whose upper case is not [HEAD] is not [HEAD]. *)
Lemma upper_HEAD (m : string) : m = "HEAD" -> upper m = "HEAD".
Proof. intros ->. reflexivity. Qed.

Lemma get_app_iter_other (req : flask.Request) (r : flask.Response) :
  String.eqb (flask.method req) "HEAD" = false -> flask.get_app_iter req r = r.
Proof. intros H. unfold flask.get_app_iter. rewrite H. reflexivity. Qed.

Lemma get_app_iter_routed_other (req : flask.Request) (r : flask.Response) :
  flask.routing_method req <> "HEAD" -> flask.get_app_iter req r = r.
Proof.
  intros H. apply get_app_iter_other. apply String.eqb_neq.
  intros E. apply H. unfold flask.routing_method. apply upper_HEAD, E.
Qed.

(** What routing finds for the application's two rules. *)
Lemma match_rules_app (h : string -> nat) (m p : string) :
  flask.match_rules h [static_rule; index_rule] m p []
  = if String.eqb p "/" then
      if flask.mem m accepted then flask.Found index_rule []
      else flask.Failed (flask.MethodNotAllowed (flask.iteration_order h accepted))
    else
      match flask.strip_prefix "/static/" p with
      | Some (String c rest) =>
          if Ascii.eqb c "/"%char then flask.RouteUnmodelled
          else if flask.mem m accepted
               then flask.Found static_rule [("filename", String c rest)]
               else flask.Failed (flask.MethodNotAllowed (flask.iteration_order h accepted))
      | _ => flask.Failed flask.NotFound
      end.
Proof.
  unfold flask.match_rules, flask.match_pattern.
  change (flask.rule static_rule) with (flask.PathUnder "/static/" "filename").
  change (flask.rule index_rule) with (flask.Static "/").
  change (flask.methods static_rule) with accepted.
  change (flask.methods index_rule) with accepted.
  cbv iota beta.
  rewrite (String.eqb_sym "/" p).
  destruct (String.eqb_spec p "/") as [->|Hp].
  - simpl flask.strip_prefix. cbv iota.
    destruct (flask.mem m accepted); reflexivity.
  - destruct (flask.strip_prefix "/static/" p) as [[|c rest]|]; try reflexivity.
    destruct (Ascii.eqb c "/"); [reflexivity|].
    destruct (flask.mem m accepted); reflexivity.
Qed.

Lemma allowed_methods_app (n : string) (req : flask.Request) (h : string -> nat) :
  flask.match_request (app n) req h = flask.Found index_rule []
  \/ (exists args, flask.match_request (app n) req h = flask.Found static_rule args) ->
  flask.allowed_methods (app n) req h = flask.iteration_order h accepted.
Proof.
  unfold flask.match_request, flask.allowed_methods.
  rewrite app_url_map, !match_rules_app.
  change (flask.has_root_rule [static_rule; index_rule]) with true.
  assert (Hno : flask.mem "--" accepted = false) by reflexivity.
  rewrite Hno.
  destruct (flask.path req) as [|a rest0] eqn:Hpath.
  - intros [H|[args H]]; discriminate.
  - destruct (String.eqb (flask.routing_path req) "/"); [reflexivity|].
    destruct (flask.strip_prefix "/static/" (flask.routing_path req)) as [[|c rest]|].
    + intros [H|[args H]]; discriminate.
    + destruct (Ascii.eqb c "/"); [|reflexivity].
      intros [H|[args H]]; discriminate.
    + intros [H|[args H]]; discriminate.
Qed.

(** [wsgi_app] of the application computes the table, and hands the world
    back as it received it. *)
Lemma wsgi_app_table (n : string) (req : flask.Request) (w : flask.World) :
  flask.wsgi_app (app n) req w = option_map (fun r => (r, w)) (table req w).
Proof.
  unfold flask.wsgi_app, flask.full_dispatch_request, flask.dispatch_request,
    flask.bind, flask.current_request, flask.hash_of_strings.
  pose proof (allowed_methods_app n req (flask.str_hash w)) as Hallowed.
  revert Hallowed.
  unfold table, flask.match_request. rewrite app_url_map, app_view_functions.
  change (flask.has_root_rule [static_rule; index_rule]) with true.
  destruct (flask.path req) as [|a rest0] eqn:Hpath; [reflexivity|].
  rewrite match_rules_app.
  destruct (String.eqb (flask.routing_path req) "/").
  - (* the index rule *)
    destruct (flask.mem (flask.routing_method req) accepted) eqn:Hm.
    + intros Hallowed. rewrite Hallowed by (left; reflexivity).
      change (flask.provide_automatic_options index_rule) with true.
      change (flask.endpoint index_rule) with "index".
      cbn -[index TEMPLATE page flask.get_app_iter flask.make_default_options_response
            flask.iteration_order accepted].
      destruct (String.eqb_spec (flask.routing_method req) "OPTIONS") as [Ho|Ho].
      * unfold flask.ret. rewrite get_app_iter_routed_other by (rewrite Ho; discriminate).
        reflexivity.
      * rewrite index_returns. reflexivity.
    + intros _. destruct (not_accepted _ Hm) as (_ & _ & Hh).
      unfold flask.abort.
      rewrite get_app_iter_routed_other by (apply String.eqb_neq; exact Hh).
      reflexivity.
  - destruct (flask.strip_prefix "/static/" (flask.routing_path req)) as [[|c rest]|] eqn:Hs;
      try (intros _; reflexivity).
    destruct (Ascii.eqb c "/"); [intros _; reflexivity|].
    destruct (flask.mem (flask.routing_method req) accepted) eqn:Hm.
    + intros Hallowed. rewrite Hallowed by (right; eexists; reflexivity).
      change (flask.provide_automatic_options static_rule) with true.
      change (flask.endpoint static_rule) with "static".
      cbn -[index TEMPLATE page flask.get_app_iter flask.make_default_options_response
            flask.iteration_order accepted flask.get_response not_found].
      destruct (String.eqb_spec (flask.routing_method req) "OPTIONS") as [Ho|Ho].
      * unfold flask.ret. rewrite get_app_iter_routed_other by (rewrite Ho; discriminate).
        reflexivity.
      * unfold flask.isfile_static, flask.unmodelled, flask.abort.
        destruct (flask.static_isfile w (String c rest)); reflexivity.
    + intros _. destruct (not_accepted _ Hm) as (_ & _ & Hh).
      unfold flask.abort.
      rewrite get_app_iter_routed_other by (apply String.eqb_neq; exact Hh).
      reflexivity.
Qed.

(** The routing path of [/] is [/]. *)
Lemma routing_path_root (req : flask.Request) :
  flask.path req = "/" -> flask.routing_path req = "/".
Proof. intros H. unfold flask.routing_path. rewrite H. reflexivity. Qed.

(** The application's answer to [GET /]. *)
Lemma wsgi_get_root (n : string) (req : flask.Request) (w : flask.World) :
  is_get_root req -> flask.wsgi_app (app n) req w = Some (page, w).
Proof.
  intros [Hm Hp]. rewrite wsgi_app_table. unfold table.
  rewrite (routing_path_root req Hp). unfold flask.routing_method, flask.get_app_iter.
  rewrite Hp, Hm. reflexivity.
Qed.

(** The server the script starts hands every request that is not the
    debugger's to the application. *)
Lemma serve_passes_on (n : string) (s : flask.Server) (req : flask.Request) (w : flask.World) :
  main n = Some s ->
  flask.trusted_host s req = true ->
  flask.debugger_request req = false ->
  flask.routing_path req <> "/console" ->
  flask.serve s req w = flask.wsgi_app (app n) req w.
Proof.
  unfold main. destruct (String.eqb n "__main__"); [|discriminate].
  intros [= <-] Ht Hd Hc.
  unfold flask.serve, flask.DebuggedApplication.
  change (flask.use_debugger (flask.run (app n) (Some "0.0.0.0") (Some 5000%Z) (Some true)))
    with true.
  cbv iota. rewrite Ht, Hd.
  destruct (String.eqb_spec (flask.routing_path req) "/console") as [E|_]; [contradiction|].
  reflexivity.
Qed.

(* ------------------------------------------------------------------ *)
(** * Properties of the application *)
(* ------------------------------------------------------------------ *)




(** C2.  The body returned for GET [/] contains the title element, the
    heading with its pictograph, the three paragraphs, and with them the
    two literal substrings the specification tests for. *)
Theorem get_root_body_contents (n : string) (req : flask.Request) (w : flask.World) :
  is_get_root req ->
  exists r, flask.wsgi_app (app n) req w = Some (r, w)
            /\ flask.status_code r = 200%Z
            /\ has_page_contents (flask.data r).
Proof.
  intros H. exists page. split; [apply wsgi_get_root, H|].
  split; [reflexivity|].
  rewrite page_data. unfold has_page_contents.
  repeat split; apply contains_Substring; vm_compute; reflexivity.
Qed.

Lemma get_root_body_contents_witness :
  is_get_root get_root_with_query /\
  exists r, flask.wsgi_app (app "__main__") get_root_with_query initial_world
            = Some (r, initial_world)
            /\ flask.status_code r = 200%Z
            /\ has_page_contents (flask.data r).
Proof.
  split; [split; reflexivity|].
  apply (get_root_body_contents "__main__" get_root_with_query initial_world).
  split; reflexivity.
Defined.

(** C8.  The template literal contains none of [{{], [{%], [{#], and what
    [render_template_string] returns for it is the literal itself,
    character for character, whatever the context, the request and the
    world. *)
Theorem template_renders_to_itself :
  contains "{{" TEMPLATE = false /\
  contains "{%" TEMPLATE = false /\
  contains "{#" TEMPLATE = false /\
  (forall ctx, jinja2.render ctx TEMPLATE = Some TEMPLATE) /\
  (forall context req w,
     flask.render_template_string TEMPLATE context req w = flask.Return TEMPLATE w).
Proof.
  split; [vm_compute; reflexivity|].
  split; [vm_compute; reflexivity|].
  split; [vm_compute; reflexivity|].
  split.
  - apply render_TEMPLATE.
  - apply render_template_string_TEMPLATE.
Qed.

(** C9.  The body returned for GET [/] does not begin with
    [<!DOCTYPE html>]: it begins with a line feed and four blanks, every
    line after that line feed begins with the four blanks of the literal's
    indentation, and after [</html>] come a line feed and four blanks. *)
Theorem get_root_body_layout (n : string) (req : flask.Request) (w : flask.World) :
  is_get_root req ->
  exists r, flask.wsgi_app (app n) req w = Some (r, w)
            /\ has_literal_layout (flask.data r).
Proof.
  intros H. exists page. split; [apply wsgi_get_root, H|].
  rewrite page_data. unfold has_literal_layout.
  split; [apply not_prefix_not_StartsWith; vm_compute; reflexivity|].
  split; [apply prefix_StartsWith; vm_compute; reflexivity|].
  split.
  - exists (tl (lines TEMPLATE)). split; [vm_compute; reflexivity|].
    apply Forall_forall. intros l Hl. apply prefix_StartsWith.
    assert (Hall : forallb (prefix "    ") (tl (lines TEMPLATE)) = true)
      by (vm_compute; reflexivity).
    rewrite forallb_forall in Hall. apply Hall, Hl.
  - exists (substring 0 (String.length TEMPLATE - 12) TEMPLATE).
    vm_compute. reflexivity.
Qed.

Lemma get_root_body_layout_witness :
  is_get_root get_root /\
  exists r, flask.wsgi_app (app "__main__") get_root initial_world = Some (r, initial_world)
            /\ has_literal_layout (flask.data r).
Proof.
  split; [split; reflexivity|].
  apply (get_root_body_layout "__main__" get_root initial_world).
  split; reflexivity.
Defined.

(** C6.  The handler of GET [/] has no side effect: it returns leaving
    the world as it found it (no variable assigned, no effect logged), and
    the value it returns is the same for every request and every world. *)
Theorem index_has_no_side_effect (req : flask.Request) (w : flask.World) :
  exists body,
    index req w = flask.Return body w /\
    forall req' w', index req' w' = flask.Return body w'.
Proof.
  exists TEMPLATE. split; [apply index_returns|].
  intros req' w'. apply index_returns.
Qed.

(** A handler that logs before answering does change the world: the frame
    property above is a property of [index], not of the monad. *)
Lemma logging_index_has_an_effect :
  logging_index get_root initial_world
  = flask.Return TEMPLATE
      (flask.with_state initial_world [] [flask.FileWrite "access.log" "GET /"]).
Proof.
  unfold logging_index, flask.bind, flask.perform.
  rewrite index_returns. reflexivity.
Qed.




(** A template that prints the request does depend on the query string:
    the independence above rests on the literal having no variable block. *)
Lemma request_template_depends_on_query :
  echo_request get_root initial_world <> echo_request get_root_with_query initial_world.
Proof. vm_compute. discriminate. Qed.

(** C7.  Run as a script, the module starts the server on host
    [0.0.0.0], port 5000, with debug mode on (and with it the reloader and
    the debugger). *)
Theorem main_starts_server :
  exists s, main "__main__" = Some s
            /\ flask.host s = "0.0.0.0"
            /\ flask.port s = 5000%Z
            /\ flask.debug (flask.application s) = true
            /\ flask.use_reloader s = true
            /\ flask.use_debugger s = true.
Proof. eexists. split; [reflexivity|]. repeat split. Qed.

(** Imported under another name, the module starts nothing. *)
Lemma main_imported (n : string) : n <> "__main__" -> main n = None.
Proof.
  intros H. unfold main. destruct (String.eqb_spec n "__main__"); [contradiction|reflexivity].
Qed.

(** ** Paths other than [/] *)




(** Another path other than [/] that is not answered 404: the application
    object comes with the rule [/static/<path:filename>], for which the
    framework answers OPTIONS itself.  The order of the methods in the
    [Allow] header is the one the world's hash gives. *)
Lemma options_under_static_is_200 :
  flask.path options_static <> "/" /\
  flask.wsgi_app (app "__main__") options_static initial_world
  = Some ({| flask.status_code := 200;
             flask.headers := [("Content-Type", "text/html; charset=utf-8");
                               ("Allow", "GET, HEAD, OPTIONS");
                               ("Content-Length", "0")];
             flask.data := EmptyString |},
          initial_world).
Proof.
  split; [simpl; discriminate|].
  vm_compute. reflexivity.
Qed.

(** ** Methods other than GET on [/] *)

(** The method token is read in upper case: [get /] is served the page. *)
Lemma lowercase_get_is_served_page :
  flask.method lowercase_get_root <> "GET" /\
  flask.wsgi_app (app "__main__") lowercase_get_root initial_world
  = Some (page, initial_world).
Proof. split; [simpl; discriminate|vm_compute; reflexivity]. Qed.

(** Routing reads [head] as HEAD, but the body is dropped only for the
    token [HEAD] itself: [head /] is answered with the page, body
    included. *)
Lemma lowercase_head_keeps_body :
  flask.wsgi_app (app "__main__") (flask.mkRequest "head" "/" "" [] "") initial_world
  = Some (page, initial_world).
Proof. vm_compute. reflexivity. Qed.




(** ** Repeated requests *)

(** Every sequence of requests has a history, from any world. *)
Lemma history_exists (a : flask.App) (reqs : list flask.Request) (w : flask.World) :
  exists tr w', flask.history a w tr w' /\ map fst tr = reqs.
Proof.
  revert w; induction reqs as [|req reqs IH]; intros w.
  - exists [], w. split; [constructor|reflexivity].
  - destruct (flask.wsgi_app a req w) as [[r w1]|] eqn:E.
    + destruct (IH w1) as (tr & w2 & Htr & Hmap).
      exists ((req, r) :: tr), w2. split.
      * econstructor; [apply flask.answers_modelled; exact E|exact Htr].
      * simpl. rewrite Hmap. reflexivity.
    + destruct (IH w) as (tr & w2 & Htr & Hmap).
      exists ((req, page) :: tr), w2. split.
      * econstructor; [apply flask.answers_unmodelled; exact E|exact Htr].
      * simpl. rewrite Hmap. reflexivity.
Qed.

(** The answer to GET [/] is determined: the page, in an unchanged world. *)
Lemma answers_get_root (n : string) (w w' : flask.World)
    (req : flask.Request) (r : flask.Response) :
  flask.answers (app n) w req r w' -> is_get_root req -> r = page /\ w' = w.
Proof.
  intros H G.
  destruct H as [w req r w' E|w req r w' E];
    rewrite (wsgi_get_root n req w G) in E.
  - injection E as <- <-. split; reflexivity.
  - discriminate.
Qed.

Lemma history_get_root (n : string) (w w' : flask.World)
    (tr : list (flask.Request * flask.Response)) :
  flask.history (app n) w tr w' ->
  forall req r, In (req, r) tr -> is_get_root req -> r = page.
Proof.
  induction 1 as [w|w req0 r0 w1 rest w2 Hstep _ IH]; intros req r Hin G.
  - destruct Hin.
  - destruct Hin as [[= -> ->]|Hin].
    + apply (answers_get_root n w w1 req r Hstep G).
    + apply (IH req r Hin G).
Qed.

Lemma history_get_root_world (n : string) (w w' : flask.World)
    (tr : list (flask.Request * flask.Response)) :
  flask.history (app n) w tr w' ->
  (forall req r, In (req, r) tr -> is_get_root req) ->
  w' = w.
Proof.
  induction 1 as [w|w req0 r0 w1 rest w2 Hstep _ IH]; intros Hall.
  - reflexivity.
  - assert (G : is_get_root req0) by (apply (Hall req0 r0); left; reflexivity).
    destruct (answers_get_root n w w1 req0 r0 Hstep G) as [_ ->].
    apply IH. intros req r Hin. apply (Hall req r). right. exact Hin.
Qed.

(** C5.  In any history of the server, whatever other requests come in
    between and in whatever order, any two answers to GET [/] have the
    same body; and a history made of GET [/] requests only ends in the
    world it started in. *)
Theorem repeated_get_root_same_body (n : string) (w w' : flask.World)
    (tr : list (flask.Request * flask.Response)) :
  flask.history (app n) w tr w' ->
  (forall req1 r1 req2 r2,
     In (req1, r1) tr -> In (req2, r2) tr ->
     is_get_root req1 -> is_get_root req2 ->
     flask.data r1 = flask.data r2)
  /\ ((forall req r, In (req, r) tr -> is_get_root req) -> w' = w).
Proof.
  intros H. split.
  - intros req1 r1 req2 r2 In1 In2 G1 G2.
    rewrite (history_get_root n w w' tr H req1 r1 In1 G1).
    rewrite (history_get_root n w w' tr H req2 r2 In2 G2).
    reflexivity.
  - apply (history_get_root_world n w w' tr H).
Qed.

Lemma repeated_get_root_same_body_witness :
  flask.history (app "__main__") initial_world sample_history initial_world /\
  (forall req1 r1 req2 r2,
     In (req1, r1) sample_history -> In (req2, r2) sample_history ->
     is_get_root req1 -> is_get_root req2 ->
     flask.data r1 = flask.data r2)
  /\ ((forall req r, In (req, r) sample_history -> is_get_root req)
      -> initial_world = initial_world).
Proof.
  assert (H : flask.history (app "__main__") initial_world sample_history initial_world).
  { unfold sample_history.
    repeat (eapply flask.history_cons;
            [apply flask.answers_modelled; vm_compute; reflexivity|]).
    apply flask.history_nil. }
  split; [exact H|].
  exact (repeated_get_root_same_body "__main__" initial_world initial_world
           sample_history H).
Defined.


(* ------------------------------------------------------------------ *)
(** * Further properties, over all requests *)
(* ------------------------------------------------------------------ *)

(** The bodies the application can send besides the page. *)
Lemma error_bodies_are_not_the_page :
  flask.data not_found <> TEMPLATE /\
  (forall w, flask.data (not_allowed w) <> TEMPLATE) /\
  EmptyString <> TEMPLATE.
Proof.
  split; [vm_compute; discriminate|].
  split; [intros w; vm_compute; discriminate|vm_compute; discriminate].
Qed.

Lemma get_app_iter_data (req : flask.Request) (r : flask.Response) :
  flask.data r <> TEMPLATE -> flask.data (flask.get_app_iter req r) <> TEMPLATE.
Proof.
  intros H. unfold flask.get_app_iter.
  destruct (String.eqb (flask.method req) "HEAD"); [|exact H].
  apply error_bodies_are_not_the_page.
Qed.

(** X1.  No request changes the world: whenever the application answers,
    the variables, the log of effects and the static folder are what they
    were before the request. *)
Theorem no_request_changes_world (n : string) (req : flask.Request)
    (w w' : flask.World) (r : flask.Response) :
  flask.wsgi_app (app n) req w = Some (r, w') -> w' = w.
Proof.
  rewrite wsgi_app_table.
  destruct (table req w) as [r0|]; simpl; [|discriminate].
  intros [= _ <-]. reflexivity.
Qed.

Lemma no_request_changes_world_witness :
  flask.wsgi_app (app "__main__") head_missing_static busy_world
  = Some (without_body not_found, busy_world)
  /\ busy_world = busy_world.
Proof.
  assert (H : flask.wsgi_app (app "__main__") head_missing_static busy_world
              = Some (without_body not_found, busy_world))
    by (vm_compute; reflexivity).
  split; [exact H|].
  exact (no_request_changes_world "__main__" head_missing_static busy_world busy_world
           (without_body not_found) H).
Defined.

(** X2.  The application object sends the page to requests for [/] only:
    with no file in the static folder, an answer whose body is the fixed
    document answers a request whose routing path is [/] and whose method
    is, in upper case, GET or HEAD.  (The redirects the model does not
    describe carry no page.) *)
Theorem page_only_for_get_root (n : string) (req : flask.Request)
    (w w' : flask.World) (r : flask.Response) :
  (forall f, flask.static_isfile w f = false) ->
  flask.wsgi_app (app n) req w = Some (r, w') ->
  flask.data r = TEMPLATE ->
  flask.routing_path req = "/" /\
  (flask.routing_method req = "GET" \/ flask.routing_method req = "HEAD").
Proof.
  intros _. rewrite wsgi_app_table. unfold table.
  destruct error_bodies_are_not_the_page as (Hnf & Hna & Hempty).
  destruct (flask.path req) as [|a p']; [discriminate|].
  destruct (String.eqb_spec (flask.routing_path req) "/") as [Hp|Hp].
  - destruct (flask.mem (flask.routing_method req) accepted) eqn:Hm; simpl negb; cbv iota.
    + destruct (String.eqb_spec (flask.routing_method req) "OPTIONS") as [Ho|Ho].
      * intros [= <- _] Hd. exfalso. apply Hempty. exact Hd.
      * intros _ _. split; [exact Hp|].
        destruct (accepted_cases _ Hm) as [G|[O|H]];
          [left; exact G|contradiction|right; exact H].
    + intros [= <- _] Hd. exfalso. apply (Hna w Hd).
  - destruct (flask.strip_prefix "/static/" (flask.routing_path req)) as [[|c rest]|].
    + intros [= <- _] Hd. exfalso. apply (get_app_iter_data req not_found Hnf Hd).
    + destruct (Ascii.eqb c "/"); [discriminate|].
      destruct (flask.mem (flask.routing_method req) accepted); simpl negb; cbv iota.
      * destruct (String.eqb (flask.routing_method req) "OPTIONS").
        -- intros [= <- _] Hd. exfalso. apply Hempty. exact Hd.
        -- destruct (flask.static_isfile w (String c rest)); [discriminate|].
           intros [= <- _] Hd. exfalso. apply (get_app_iter_data req not_found Hnf Hd).
      * intros [= <- _] Hd. exfalso. apply (Hna w Hd).
    + intros [= <- _] Hd. exfalso. apply (get_app_iter_data req not_found Hnf Hd).
Qed.

Lemma page_only_for_get_root_witness :
  (forall f, flask.static_isfile initial_world f = false) /\
  flask.wsgi_app (app "__main__") get_double_slash initial_world = Some (page, initial_world) /\
  flask.data page = TEMPLATE /\
  flask.routing_path get_double_slash = "/" /\
  (flask.routing_method get_double_slash = "GET"
   \/ flask.routing_method get_double_slash = "HEAD").
Proof.
  assert (Hf : forall f, flask.static_isfile initial_world f = false)
    by (intros f; reflexivity).
  assert (H : flask.wsgi_app (app "__main__") get_double_slash initial_world
              = Some (page, initial_world)) by (vm_compute; reflexivity).
  split; [exact Hf|]. split; [exact H|]. split; [reflexivity|].
  exact (page_only_for_get_root "__main__" get_double_slash initial_world initial_world
           page Hf H eq_refl).
Defined.



(** X5.  With no file in the static folder, every GET for a path whose
    routing path is not [/] gets the standard 404, from the application
    object and, for a request that names a trusted host and is not the
    debugger's, from the server the script starts.  The empty path and the paths starting with [/static//]
    are answered with redirects and are left out. *)
Theorem get_elsewhere_not_found (n : string) (req : flask.Request) (w : flask.World) :
  flask.method req = "GET" ->
  flask.path req <> EmptyString ->
  flask.routing_path req <> "/" ->
  prefix "/static//" (flask.routing_path req) = false ->
  (forall f, flask.static_isfile w f = false) ->
  flask.wsgi_app (app n) req w = Some (flask.get_response flask.NotFound, w) /\
  (forall s, main n = Some s ->
     flask.trusted_host s req = true ->
     flask.debugger_request req = false ->
     flask.routing_path req <> "/console" ->
     flask.serve s req w = Some (flask.get_response flask.NotFound, w)).
Proof.
  intros Hm Hne Hp Hss Hfiles.
  assert (Happ : flask.wsgi_app (app n) req w = Some (flask.get_response flask.NotFound, w)).
  { rewrite wsgi_app_table. unfold table, flask.get_app_iter, flask.routing_method.
    rewrite Hm. change (upper "GET") with "GET".
    destruct (flask.path req) as [|a p']; [contradiction|].
    destruct (String.eqb_spec (flask.routing_path req) "/") as [E|_]; [contradiction|].
    destruct (flask.strip_prefix "/static/" (flask.routing_path req)) as [[|c rest]|] eqn:Hs;
      try reflexivity.
    destruct (Ascii.eqb_spec c "/") as [->|_].
    - rewrite (strip_prefix_double_slash _ _ Hs) in Hss. discriminate.
    - simpl. rewrite Hfiles. reflexivity. }
  split; [exact Happ|].
  intros s Hs Ht Hd Hc. rewrite (serve_passes_on n s req w Hs Ht Hd Hc). exact Happ.
Qed.

Lemma get_elsewhere_not_found_witness :
  flask.method browser_get_missing = "GET" /\
  flask.path browser_get_missing <> EmptyString /\
  flask.routing_path browser_get_missing <> "/" /\
  prefix "/static//" (flask.routing_path browser_get_missing) = false /\
  (forall f, flask.static_isfile initial_world f = false) /\
  flask.wsgi_app (app "__main__") browser_get_missing initial_world
  = Some (flask.get_response flask.NotFound, initial_world) /\
  flask.serve dev_server browser_get_missing initial_world
  = Some (flask.get_response flask.NotFound, initial_world).
Proof.
  assert (Hf : forall f, flask.static_isfile initial_world f = false)
    by (intros f; reflexivity).
  assert (H2 : flask.path browser_get_missing <> EmptyString) by (simpl; discriminate).
  assert (H3 : flask.routing_path browser_get_missing <> "/") by (vm_compute; discriminate).
  split; [reflexivity|]. split; [exact H2|]. split; [exact H3|].
  split; [reflexivity|]. split; [exact Hf|].
  destruct (get_elsewhere_not_found "__main__" browser_get_missing initial_world
              eq_refl H2 H3 eq_refl Hf) as [Happ Hserver].
  split; [exact Happ|].
  apply (Hserver dev_server eq_refl).
  - reflexivity.
  - reflexivity.
  - vm_compute; discriminate.
Defined.

(** X6.  HEAD mirrors GET on every path: the answer to a HEAD request is
    the answer to the same request asked with GET, without its body. *)
Theorem head_mirrors_get (n : string) (req : flask.Request) (w : flask.World) :
  flask.method req = "HEAD" ->
  flask.wsgi_app (app n) req w
  = option_map (fun rw => (without_body (fst rw), snd rw))
      (flask.wsgi_app (app n) (as_get req) w).
Proof.
  intros Hm. rewrite !wsgi_app_table.
  destruct req as [m p q h d]. simpl in Hm. subst m.
  unfold table, flask.get_app_iter, as_get, flask.routing_method, flask.routing_path.
  cbn [flask.method flask.path].
  change (upper "HEAD") with "HEAD". change (upper "GET") with "GET".
  destruct p as [|a p']; [reflexivity|].
  destruct (String.eqb ("/" ++ lstrip_slashes (String a p')) "/"); [reflexivity|].
  destruct (flask.strip_prefix "/static/" ("/" ++ lstrip_slashes (String a p')))
    as [[|c rest]|]; try reflexivity.
  destruct (Ascii.eqb c "/"); [reflexivity|].
  cbn -[page not_found flask.static_isfile].
  destruct (flask.static_isfile w (String c rest)); reflexivity.
Qed.

Lemma head_mirrors_get_witness :
  flask.method head_root = "HEAD" /\
  flask.wsgi_app (app "__main__") head_root initial_world
  = option_map (fun rw => (without_body (fst rw), snd rw))
      (flask.wsgi_app (app "__main__") (as_get head_root) initial_world).
Proof.
  split; [reflexivity|].
  apply (head_mirrors_get "__main__" head_root initial_world). reflexivity.
Defined.


